(** * MemoryRouter embedding service (modal-embeddings/app.py)

    A shallow embedding of the Modal application that serves sentence
    embeddings over HTTP, and the properties of its three routes and of
    the two methods of [EmbeddingService].

    The third-party parts (the sentence-transformers model, torch's device
    query, Python's [round] on floats and the clock) are not code of the
    application: they appear as a record of operations the application is
    run against, each a function of its arguments that may fail.  Python
    floats are Rocq's binary64 floats.  Python [str] is modelled by
    [string], one character per code point below 256.

    The service methods are written in a state-and-exception monad over
    the attributes of the [EmbeddingService] instance; the HTTP handlers,
    which reach the service through [.remote()] calls only, are programs
    over those calls. *)

From Stdlib Require Import ZArith Floats.
From stdpp Require Import gmap strings list fin_maps.

#[local] Set Warnings "-register-all".
#[local] Open Scope string_scope.

(** ** Python values

    What a decoded JSON body can hold, and what [ndarray.tolist()]
    returns. *)

Inductive pyval : Type :=
  | PNone
  | PBool (b : bool)
  | PInt (z : Z)
  | PFloat (x : float)
  | PStr (s : string)
  | PList (l : list pyval)
  | PDict (d : gmap string pyval).

(** Exceptions the application can see.  [HTTPException] is FastAPI's; the
    three builtin exceptions are the ones the builtins below raise;
    [ExternalError] stands for any failure inside a third-party call. *)
Inductive exn : Type :=
  | HTTPException (status_code : Z) (detail : string)
  | AttributeError
  | TypeError
  | IndexError
  | ExternalError.

Inductive result (A : Type) : Type :=
  | Ok (a : A)
  | Raise (e : exn).
Arguments Ok {A} a.
Arguments Raise {A} e.

(** [bool(v)], as used by [if not v]. *)
Definition truthy (v : pyval) : bool :=
  match v with
  | PNone => false
  | PBool b => b
  | PInt z => negb (z =? 0)%Z
  | PFloat x => negb (PrimFloat.eqb x 0%float)
  | PStr s => negb (String.eqb s "")
  | PList l => match l with [] => false | _ :: _ => true end
  | PDict d => negb (bool_decide (d = ∅))
  end.

(** [isinstance(v, str)]. *)
Definition isinstance_str (v : pyval) : bool :=
  match v with PStr _ => true | _ => false end.

(** [len(v)]. *)
Definition py_len (v : pyval) : result nat :=
  match v with
  | PStr s => Ok (String.length s)
  | PList l => Ok (length l)
  | PDict d => Ok (size d)
  | _ => Raise TypeError
  end.

(** The items a [for] loop over [v] visits: the elements of a list, the
    keys of a dict, the characters of a string. *)
Definition py_iter (v : pyval) : result (list pyval) :=
  match v with
  | PStr s => Ok ((λ c, PStr (String c "")) <$> String.list_ascii_of_string s)
  | PList l => Ok l
  | PDict d => Ok (PStr <$> (map_to_list d).*1)
  | _ => Raise TypeError
  end.

(** [enumerate(l)]. *)
Fixpoint enumerate_from {A} (i : nat) (l : list A) : list (nat * A) :=
  match l with
  | [] => []
  | x :: l' => (i, x) :: enumerate_from (S i) l'
  end.
Definition enumerate {A} (l : list A) : list (nat * A) := enumerate_from 0 l.

(** [str.isspace] on one character (code points below 256). *)
Definition isspace (c : Ascii.ascii) : bool :=
  let n := Ascii.nat_of_ascii c in
  ((9 <=? n)%nat && (n <=? 13)%nat) || ((28 <=? n)%nat && (n <=? 32)%nat)
  || (n =? 133)%nat || (n =? 160)%nat.

(** [s.split()]: the maximal runs of non-whitespace characters.  [cur] is
    the run being read, if any. *)
Fixpoint split_from (cur : option string) (s : string) : list string :=
  match s with
  | EmptyString => match cur with Some w => [w] | None => [] end
  | String c s' =>
      if isspace c
      then match cur with
           | Some w => w :: split_from None s'
           | None => split_from None s'
           end
      else split_from (Some (default "" cur +:+ String c "")) s'
  end.
Definition str_split (s : string) : list string := split_from None s.

(** ** The external model and the platform *)

(** A numpy array as the application uses it: [.shape] and [.tolist()]. *)
Record ndarray : Type := { shape : list nat; tolist : pyval }.

(** [a.shape[i]]. *)
Definition shape_at (a : ndarray) (i : nat) : result nat :=
  match shape a !! i with
  | Some n => Ok n
  | None => Raise IndexError
  end.

(** A loaded [SentenceTransformer]: [encode texts normalize] is
    [model.encode(texts, normalize_embeddings=normalize,
    show_progress_bar=False, convert_to_numpy=True)]; [None] is a failure
    inside the library. *)
Record SentenceTransformer : Type :=
  { encode : pyval → bool → option ndarray }.

(** What the container offers besides: the model constructor, torch's
    [cuda.get_device_name], and the builtin [round(x, ndigits)]. *)
Record Runtime : Type :=
  { new_SentenceTransformer : string → option SentenceTransformer;
    cuda_get_device_name : Z → option string;
    py_round : float → Z → float }.

(** ** The state-and-exception monad of the service container *)

(** The attributes of an [EmbeddingService] instance.  [model] is unset
    until [load_model] has run. *)
Record EmbeddingService : Type :=
  { model_name : string; model : option SentenceTransformer }.

Definition new_EmbeddingService : EmbeddingService :=
  {| model_name := "NovaSearch/stella_en_400M_v5"; model := None |}.

Definition M (A : Type) : Type :=
  EmbeddingService → result A * EmbeddingService.

#[export] Instance M_ret : MRet M := λ A a self, (Ok a, self).
#[export] Instance M_bind : MBind M := λ A B f c self,
  match c self with
  | (Ok a, self') => f a self'
  | (Raise e, self') => (Raise e, self')
  end.

Definition raise {A} (e : exn) : M A := λ self, (Raise e, self).
Definition get_self : M EmbeddingService := λ self, (Ok self, self).
Definition put_self (self' : EmbeddingService) : M unit :=
  λ _, (Ok (), self').
Definition lift {A} (r : result A) : M A := λ self, (r, self).
Definition external {A} (r : option A) : M A :=
  λ self, (match r with Some a => Ok a | None => Raise ExternalError end, self).

(** [self.model]: an [AttributeError] when the attribute was never set. *)
Definition get_model : M SentenceTransformer :=
  self ← get_self;
  match model self with
  | Some m => mret m
  | None => raise AttributeError
  end.

(** ** class EmbeddingService *)

Module EmbedResult.
Record t : Type :=
  { embeddings : pyval; dims : nat; count : nat;
    model : string; latency_ms : float }.
End EmbedResult.

Module HealthResult.
Record t : Type :=
  { status : string; model : string; gpu : string; dims : nat }.
End HealthResult.

Section Service.
Variable rt : Runtime.

(** [load_model], the [modal.enter] hook.  The two [print]s write to the
    container log and are left out; [self.model.eval()] returns the
    model. *)
Definition load_model : M unit :=
  self ← get_self;
  m ← external (new_SentenceTransformer rt (model_name self));
  put_self {| model_name := model_name self; model := Some m |};;
  _ ← external (encode m (PList [PStr "warmup"]) true);
  _ ← external (cuda_get_device_name rt 0);
  mret ().

(** [embed].  [clock] holds the two readings of [time.perf_counter()]. *)
Definition embed (texts : pyval) (normalize : bool) (clock : float * float)
  : M EmbedResult.t :=
  let start := clock.1 in
  m ← get_model;
  embeddings ← external (encode m texts normalize);
  let elapsed_ms := ((clock.2 - start) * 1000)%float in
  let embeddings_list := tolist embeddings in
  d ← lift (shape_at embeddings 1);
  n ← lift (py_len texts);
  self ← get_self;
  mret {| EmbedResult.embeddings := embeddings_list;
          EmbedResult.dims := d;
          EmbedResult.count := n;
          EmbedResult.model := model_name self;
          EmbedResult.latency_ms := py_round rt elapsed_ms 2 |}.

(** [health]. *)
Definition health : M HealthResult.t :=
  self ← get_self;
  name ← external (cuda_get_device_name rt 0);
  mret {| HealthResult.status := "healthy";
          HealthResult.model := model_name self;
          HealthResult.gpu := name;
          HealthResult.dims := 1024 |}.
End Service.

(** ** The web function

    The FastAPI handlers run in a container of their own and reach the
    service through [.remote()] calls.  A handler is a program over these
    two calls; [run] executes it against the service container. *)

#[export] Instance result_ret : MRet result := λ A a, Ok a.
#[export] Instance result_bind : MBind result := λ A B f r,
  match r with
  | Ok a => f a
  | Raise e => Raise e
  end.

Inductive prog (A : Type) : Type :=
  | Return (a : A)
  | Throw (e : exn)
  | RemoteEmbed (texts : pyval) (normalize : bool) (k : EmbedResult.t → prog A)
  | RemoteHealth (k : HealthResult.t → prog A).
Arguments Return {A} a.
Arguments Throw {A} e.
Arguments RemoteEmbed {A} texts normalize k.
Arguments RemoteHealth {A} k.

Fixpoint prog_bind {A B} (f : A → prog B) (p : prog A) : prog B :=
  match p with
  | Return a => f a
  | Throw e => Throw e
  | RemoteEmbed texts normalize k =>
      RemoteEmbed texts normalize (λ r, prog_bind f (k r))
  | RemoteHealth k => RemoteHealth (λ r, prog_bind f (k r))
  end.

#[export] Instance prog_ret : MRet prog := λ A a, Return a.
#[export] Instance prog_mbind : MBind prog := λ A B f p, prog_bind f p.
#[export] Instance prog_fmap : FMap prog := λ A B f p,
  prog_bind (λ a, Return (f a)) p.

Definition of_result {A} (r : result A) : prog A :=
  match r with
  | Ok a => Return a
  | Raise e => Throw e
  end.

(** [service.embed.remote(texts, normalize)] and
    [service.health.remote()]. *)
Definition service_embed_remote (texts : pyval) (normalize : bool)
  : prog EmbedResult.t := RemoteEmbed texts normalize Return.
Definition service_health_remote : prog HealthResult.t := RemoteHealth Return.

Module EmbedRequest.
Record t : Type := { texts : list string; normalize : bool }.
End EmbedRequest.

Module Embedding.
Record t : Type := { object : string; index : nat; embedding : pyval }.
End Embedding.

Module Usage.
Record t : Type := { prompt_tokens : nat; total_tokens : nat }.
End Usage.

Module OpenAIResponse.
Record t : Type :=
  { object : string; model : string;
    data : list Embedding.t; usage : Usage.t }.
End OpenAIResponse.

(** [len(t.split())]; a value that is not a string has no [split]. *)
Definition split_len (t : pyval) : result nat :=
  match t with
  | PStr s => Ok (length (str_split s))
  | _ => Raise AttributeError
  end.

(** [sum(len(t.split()) for t in items)], from the running total [acc]. *)
Fixpoint sum_split_len (acc : nat) (items : list pyval) : result nat :=
  match items with
  | [] => Ok acc
  | t :: items' => n ← split_len t; sum_split_len (acc + n) items'
  end.

Definition count_tokens (input_text : pyval) : result nat :=
  items ← py_iter input_text; sum_split_len 0 items.

(** [GET /health]. *)
Definition health_route : prog HealthResult.t := service_health_remote.

(** [POST /embed]. *)
Definition embed_route (req : EmbedRequest.t) : prog EmbedResult.t :=
  if negb (truthy (PList (PStr <$> EmbedRequest.texts req)))
  then Throw (HTTPException 400 "texts array required")
  else if (100 <? length (EmbedRequest.texts req))%nat
  then Throw (HTTPException 400 "max 100 texts per request")
  else service_embed_remote (PList (PStr <$> EmbedRequest.texts req))
                            (EmbedRequest.normalize req).

(** [input_text] as it stands after the [isinstance] test. *)
Definition wrap_input (req : gmap string pyval) : pyval :=
  let input_text := default (PList []) (req !! "input") in
  if isinstance_str input_text then PList [input_text] else input_text.

Definition embedding_item (ie : nat * pyval) : Embedding.t :=
  {| Embedding.object := "embedding";
     Embedding.index := ie.1;
     Embedding.embedding := ie.2 |}.

(** What the handler builds from the result of [embed]: the dict display
    evaluates its entries in order, and an exception in one of them ends
    it. *)
Definition openai_format (input_text : pyval) (embed_result : EmbedResult.t)
  : result OpenAIResponse.t :=
  embs ← py_iter (EmbedResult.embeddings embed_result);
  prompt_tokens ← count_tokens input_text;
  total_tokens ← count_tokens input_text;
  mret {| OpenAIResponse.object := "list";
          OpenAIResponse.model := EmbedResult.model embed_result;
          OpenAIResponse.data := embedding_item <$> enumerate embs;
          OpenAIResponse.usage :=
            {| Usage.prompt_tokens := prompt_tokens;
               Usage.total_tokens := total_tokens |} |}.

(** [POST /v1/embeddings]. *)
Definition openai_compatible (req : gmap string pyval)
  : prog OpenAIResponse.t :=
  let input_text := wrap_input req in
  if negb (truthy input_text)
  then Throw (HTTPException 400 "input required")
  else embed_result ← service_embed_remote input_text true;
       of_result (openai_format input_text embed_result).

(** [keep_warm], the scheduled function; its [print] is left out. *)
Definition keep_warm : prog unit :=
  _ ← service_health_remote; mret ().

Inductive request : Type :=
  | GET_health
  | POST_embed (req : EmbedRequest.t)
  | POST_v1_embeddings (req : gmap string pyval)
  | Scheduled_keep_warm.

Inductive body : Type :=
  | HealthBody (b : HealthResult.t)
  | EmbedBody (b : EmbedResult.t)
  | OpenAIBody (b : OpenAIResponse.t)
  | NoBody.

Definition handler (r : request) : prog body :=
  match r with
  | GET_health => HealthBody <$> health_route
  | POST_embed req => EmbedBody <$> embed_route req
  | POST_v1_embeddings req => OpenAIBody <$> openai_compatible req
  | Scheduled_keep_warm => (λ _, NoBody) <$> keep_warm
  end.

(** ** Running handlers against the service container *)

Section Run.
Variable rt : Runtime.

(** A [.remote()] call runs the method in the service container; an
    exception raised there is raised again in the caller. *)
Fixpoint run {A} (p : prog A) (clock : float * float) : M A :=
  match p with
  | Return a => mret a
  | Throw e => raise e
  | RemoteEmbed texts normalize k =>
      r ← embed rt texts normalize clock; run (k r) clock
  | RemoteHealth k => r ← health rt; run (k r) clock
  end.

(** A sequence of requests, each with the clock readings of its time,
    served one after the other by the same container. *)
Fixpoint serve (reqs : list (request * (float * float)))
  (self : EmbeddingService) : list (result body) * EmbeddingService :=
  match reqs with
  | [] => ([], self)
  | (r, clock) :: reqs' =>
      let (out, self') := run (handler r) clock self in
      let (outs, self'') := serve reqs' self' in
      (out :: outs, self'')
  end.
End Run.

(** ** The operations as functions of the state

    What each operation returns, read off its definition; the lemmas
    [embed_unfold], [health_unfold], [run_embed_route] and
    [run_openai_compatible] below relate them to the monadic code. *)

Section Outcomes.
Variable rt : Runtime.

Definition embed_outcome (texts : pyval) (normalize : bool)
  (clock : float * float) (self : EmbeddingService)
  : result EmbedResult.t :=
  match model self with
  | None => Raise AttributeError
  | Some m =>
      match encode m texts normalize with
      | None => Raise ExternalError
      | Some a =>
          match shape a !! 1 with
          | None => Raise IndexError
          | Some d =>
              match py_len texts with
              | Raise e => Raise e
              | Ok n =>
                  Ok {| EmbedResult.embeddings := tolist a;
                        EmbedResult.dims := d;
                        EmbedResult.count := n;
                        EmbedResult.model := model_name self;
                        EmbedResult.latency_ms :=
                          py_round rt ((clock.2 - clock.1) * 1000)%float 2 |}
              end
          end
      end
  end.

Definition health_outcome (self : EmbeddingService)
  : result HealthResult.t :=
  match cuda_get_device_name rt 0 with
  | Some name =>
      Ok {| HealthResult.status := "healthy";
            HealthResult.model := model_name self;
            HealthResult.gpu := name;
            HealthResult.dims := 1024 |}
  | None => Raise ExternalError
  end.

Definition embed_route_outcome (req : EmbedRequest.t) (clock : float * float)
  (self : EmbeddingService) : result EmbedResult.t :=
  match EmbedRequest.texts req with
  | [] => Raise (HTTPException 400 "texts array required")
  | _ :: _ =>
      if (100 <? length (EmbedRequest.texts req))%nat
      then Raise (HTTPException 400 "max 100 texts per request")
      else embed_outcome (PList (PStr <$> EmbedRequest.texts req))
             (EmbedRequest.normalize req) clock self
  end.

Definition openai_outcome (req : gmap string pyval) (clock : float * float)
  (self : EmbeddingService) : result OpenAIResponse.t :=
  if negb (truthy (wrap_input req))
  then Raise (HTTPException 400 "input required")
  else r ← embed_outcome (wrap_input req) true clock self;
       openai_format (wrap_input req) r.
End Outcomes.

(** ** Notions the properties are stated with *)

(** A handler's outcome is an HTTP 400 response. *)
Definition raises_400 {A} (r : result A) : Prop :=
  ∃ detail, r = Raise (HTTPException 400 detail).

(** [calls_embed p texts normalize]: along some run, [p] makes the remote
    call [embed(texts, normalize)]. *)
Inductive calls_embed {A} : prog A → pyval → bool → Prop :=
  | calls_embed_here texts normalize k :
      calls_embed (RemoteEmbed texts normalize k) texts normalize
  | calls_embed_after_embed texts' normalize' k r texts normalize :
      calls_embed (k r) texts normalize →
      calls_embed (RemoteEmbed texts' normalize' k) texts normalize
  | calls_embed_after_health k r texts normalize :
      calls_embed (k r) texts normalize →
      calls_embed (RemoteHealth k) texts normalize.

(** The Python value of a list of float vectors. *)
Definition matrix_value (rows : list (list float)) : pyval :=
  PList ((λ row, PList (PFloat <$> row)) <$> rows).

(** The contract of sentence-transformers' [encode] on a non-empty list of
    sentences: a two-dimensional array with one row per sentence, in the
    order of the sentences.  [R normalize s row] is whatever the library
    promises of the row it computes for sentence [s]. *)
Definition encode_contract (R : bool → string → list float → Prop)
  (m : SentenceTransformer) : Prop :=
  ∀ (ts : list string) normalize a,
    ts ≠ [] →
    encode m (PList (PStr <$> ts)) normalize = Some a →
    ∃ d rows,
      shape a = [length ts; d] ∧ tolist a = matrix_value rows ∧
      Forall2 (R normalize) ts rows ∧ Forall (λ row, length row = d) rows.

(** Two [embed] results that differ in the measured latency at most. *)
Definition same_but_latency (r r' : EmbedResult.t) : Prop :=
  EmbedResult.embeddings r = EmbedResult.embeddings r' ∧
  EmbedResult.dims r = EmbedResult.dims r' ∧
  EmbedResult.count r = EmbedResult.count r' ∧
  EmbedResult.model r = EmbedResult.model r'.

(** Following the spec's words ("400 if input empty"): the input of a
    request is empty when the field is absent or holds an empty array. *)
Definition input_empty (req : gmap string pyval) : bool :=
  match req !! "input" with
  | None => true
  | Some (PList []) => true
  | Some _ => false
  end.



(** The number of words of a list of strings, as [usage] reports it. *)
Definition word_total (ts : list string) : nat :=
  sum_list_with (λ t, length (str_split t)) ts.

(** A program makes no remote call of [embed]. *)
Definition never_calls_embed {A} (p : prog A) : Prop :=
  ∀ texts normalize, ¬ calls_embed p texts normalize.

(** ** A small runtime to evaluate the application on

    [toy_model] returns a two-column array with one row per sentence: the
    row of the empty sentence is [0, 1], that of any other is [1, 0].  On
    an empty list it returns a one-dimensional array of shape [(0,)], as
    numpy builds from no rows.  It fails on anything that is not a list of
    strings. *)

Definition toy_vector_of (s : string) : list float :=
  if String.eqb s "" then [0%float; 1%float] else [1%float; 0%float].

Definition toy_row (v : pyval) : option pyval :=
  match v with
  | PStr s => Some (PList (PFloat <$> toy_vector_of s))
  | _ => None
  end.

Definition toy_model : SentenceTransformer :=
  {| encode texts normalize :=
       match texts with
       | PList [] => Some {| shape := [0]; tolist := PList [] |}
       | PList l =>
           rows ← mapM toy_row l;
           Some {| shape := [length l; 2]; tolist := PList rows |}
       | _ => None
       end |}.

Definition toy_vector (normalize : bool) (s : string) (row : list float)
  : Prop := row = toy_vector_of s.

Definition toy_rt : Runtime :=
  {| new_SentenceTransformer name := Some toy_model;
     cuda_get_device_name i := if (i =? 0)%Z then Some "Tesla T4" else None;
     py_round x ndigits := x |}.

Definition toy_loaded : EmbeddingService :=
  {| model_name := "NovaSearch/stella_en_400M_v5"; model := Some toy_model |}.

Definition toy_clock : float * float := (1%float, 2%float).

Definition toy_request : gmap string pyval :=
  {["input" := PList [PStr "hello world"; PStr ""]]}.

Definition toy_response : OpenAIResponse.t :=
  {| OpenAIResponse.object := "list";
     OpenAIResponse.model := "NovaSearch/stella_en_400M_v5";
     OpenAIResponse.data :=
       [ {| Embedding.object := "embedding"; Embedding.index := 0;
            Embedding.embedding := PList [PFloat 1; PFloat 0] |};
         {| Embedding.object := "embedding"; Embedding.index := 1;
            Embedding.embedding := PList [PFloat 0; PFloat 1] |} ];
     OpenAIResponse.usage :=
       {| Usage.prompt_tokens := 2; Usage.total_tokens := 2 |} |}.

(** ** Evaluation on the small runtime *)

Example toy_load :
  load_model toy_rt new_EmbeddingService = (Ok (), toy_loaded).
Proof. reflexivity. Qed.

Example toy_embed :
  embed toy_rt (PList [PStr "hello world"; PStr ""]) true toy_clock toy_loaded
  = (Ok {| EmbedResult.embeddings :=
             PList [PList [PFloat 1; PFloat 0]; PList [PFloat 0; PFloat 1]];
           EmbedResult.dims := 2;
           EmbedResult.count := 2;
           EmbedResult.model := "NovaSearch/stella_en_400M_v5";
           EmbedResult.latency_ms := 1000 |}, toy_loaded).
Proof. vm_compute. reflexivity. Qed.

Example toy_embed_empty :
  (embed toy_rt (PList []) true toy_clock toy_loaded).1 = Raise IndexError.
Proof. reflexivity. Qed.

Example toy_embed_before_load :
  (embed toy_rt (PList [PStr "a"]) true toy_clock new_EmbeddingService).1
  = Raise AttributeError.
Proof. reflexivity. Qed.

Example toy_split :
  str_split "  hello   big world " = ["hello"; "big"; "world"].
Proof. reflexivity. Qed.

Example toy_openai :
  run toy_rt (openai_compatible toy_request) toy_clock toy_loaded
  = (Ok toy_response, toy_loaded).
Proof. vm_compute. reflexivity. Qed.

Example toy_openai_empty_string :
  (run toy_rt (openai_compatible {["input" := PStr ""]})
     toy_clock toy_loaded).1
  = Ok {| OpenAIResponse.object := "list";
          OpenAIResponse.model := "NovaSearch/stella_en_400M_v5";
          OpenAIResponse.data :=
            [ {| Embedding.object := "embedding"; Embedding.index := 0;
                 Embedding.embedding := PList [PFloat 0; PFloat 1] |} ];
          OpenAIResponse.usage :=
            {| Usage.prompt_tokens := 0; Usage.total_tokens := 0 |} |}.
Proof. vm_compute. reflexivity. Qed.

Example toy_openai_number :
  (run toy_rt (openai_compatible {["input" := PInt 5]})
     toy_clock toy_loaded).1
  = Raise ExternalError.
Proof. vm_compute. reflexivity. Qed.

Example toy_embed_route_101 :
  (run toy_rt
     (embed_route {| EmbedRequest.texts := replicate 101 "a";
                     EmbedRequest.normalize := true |})
     toy_clock toy_loaded).1
  = Raise (HTTPException 400 "max 100 texts per request").
Proof. vm_compute. reflexivity. Qed.

(** ** The service methods as functions of the state *)

Section ServiceFacts.
Variable rt : Runtime.

Ltac unfold_M :=
  unfold embed, health, load_model, get_model, get_self, put_self, lift,
    external, raise, shape_at, mbind, mret, M_bind, M_ret in *;
  cbn beta iota zeta in *.

Lemma embed_unfold texts normalize clock self :
  embed rt texts normalize clock self
  = (embed_outcome rt texts normalize clock self, self).
Proof.
  unfold embed_outcome. unfold_M.
  destruct (model self) as [m|]; [|reflexivity].
  destruct (encode m texts normalize) as [a|]; [|reflexivity].
  destruct (shape a !! 1) as [d|]; [|reflexivity].
  destruct (py_len texts) as [n|e]; reflexivity.
Qed.

Lemma health_unfold self :
  health rt self = (health_outcome rt self, self).
Proof.
  unfold health_outcome. unfold_M.
  destruct (cuda_get_device_name rt 0); reflexivity.
Qed.

Lemma load_model_Ok self0 self :
  load_model rt self0 = (Ok (), self) →
  ∃ m name,
    new_SentenceTransformer rt (model_name self0) = Some m ∧
    cuda_get_device_name rt 0 = Some name ∧
    self = {| model_name := model_name self0; model := Some m |}.
Proof.
  unfold_M.
  destruct (new_SentenceTransformer rt (model_name self0)) as [m|];
    [|discriminate].
  destruct (encode m (PList [PStr "warmup"]) true); [|discriminate].
  destruct (cuda_get_device_name rt 0) as [name|]; [|discriminate].
  intros [= <-]. eauto.
Qed.

(** The methods of the service raise no [HTTPException]. *)
Lemma embed_outcome_not_http texts normalize clock self code detail :
  embed_outcome rt texts normalize clock self
  ≠ Raise (HTTPException code detail).
Proof.
  unfold embed_outcome.
  destruct (model self) as [m|]; [|discriminate].
  destruct (encode m texts normalize) as [a|]; [|discriminate].
  destruct (shape a !! 1); [|discriminate].
  destruct texts; discriminate.
Qed.

(** The clock reaches the latency field only. *)
Lemma embed_outcome_clock texts normalize clock clock' self :
  match embed_outcome rt texts normalize clock self,
        embed_outcome rt texts normalize clock' self with
  | Ok r, Ok r' => same_but_latency r r'
  | Raise e, Raise e' => e = e'
  | _, _ => False
  end.
Proof.
  unfold embed_outcome.
  destruct (model self) as [m|]; [|reflexivity].
  destruct (encode m texts normalize) as [a|]; [|reflexivity].
  destruct (shape a !! 1); [|reflexivity].
  destruct (py_len texts); [|reflexivity].
  by repeat split.
Qed.
End ServiceFacts.

(** ** Running programs *)

Section RunFacts.
Variable rt : Runtime.

Lemma run_RemoteEmbed {A} texts normalize (k : EmbedResult.t → prog A)
  clock self :
  run rt (RemoteEmbed texts normalize k) clock self
  = match embed_outcome rt texts normalize clock self with
    | Ok r => run rt (k r) clock self
    | Raise e => (Raise e, self)
    end.
Proof.
  change (run rt (RemoteEmbed texts normalize k) clock self)
    with (match embed rt texts normalize clock self with
          | (Ok r, self') => run rt (k r) clock self'
          | (Raise e, self') => (Raise e, self')
          end).
  rewrite embed_unfold.
  by destruct (embed_outcome rt texts normalize clock self).
Qed.

Lemma run_RemoteHealth {A} (k : HealthResult.t → prog A) clock self :
  run rt (RemoteHealth k) clock self
  = match health_outcome rt self with
    | Ok r => run rt (k r) clock self
    | Raise e => (Raise e, self)
    end.
Proof.
  change (run rt (RemoteHealth k) clock self)
    with (match health rt self with
          | (Ok r, self') => run rt (k r) clock self'
          | (Raise e, self') => (Raise e, self')
          end).
  rewrite health_unfold. by destruct (health_outcome rt self).
Qed.

(** No program changes the attributes of the service. *)
Lemma run_state {A} (p : prog A) clock self :
  (run rt p clock self).2 = self.
Proof.
  induction p as [a|e|texts normalize k IH|k IH]; try reflexivity.
  - rewrite run_RemoteEmbed.
    destruct (embed_outcome rt texts normalize clock self); [apply IH|done].
  - rewrite run_RemoteHealth.
    destruct (health_outcome rt self); [apply IH|done].
Qed.

Lemma run_bind {A B} (p : prog A) (f : A → prog B) clock self :
  run rt (p ≫= f) clock self
  = match (run rt p clock self).1 with
    | Ok a => run rt (f a) clock self
    | Raise e => (Raise e, self)
    end.
Proof.
  induction p as [a|e|texts normalize k IH|k IH]; try reflexivity.
  - change (RemoteEmbed texts normalize k ≫= f)
      with (RemoteEmbed texts normalize (λ r, k r ≫= f)).
    rewrite !run_RemoteEmbed.
    destruct (embed_outcome rt texts normalize clock self);
      [apply IH|reflexivity].
  - change (RemoteHealth k ≫= f) with (RemoteHealth (λ r, k r ≫= f)).
    rewrite !run_RemoteHealth.
    destruct (health_outcome rt self); [apply IH|reflexivity].
Qed.

Lemma run_of_result {A} (r : result A) clock self :
  run rt (of_result r) clock self = (r, self).
Proof. by destruct r. Qed.

Lemma run_embed_remote texts normalize clock self :
  run rt (service_embed_remote texts normalize) clock self
  = (embed_outcome rt texts normalize clock self, self).
Proof.
  unfold service_embed_remote. rewrite run_RemoteEmbed.
  by destruct (embed_outcome rt texts normalize clock self).
Qed.

Lemma serve_unfold reqs self :
  serve rt reqs self
  = ((λ rc, (run rt (handler rc.1) rc.2 self).1) <$> reqs, self).
Proof.
  induction reqs as [|[r clock] reqs IH]; [reflexivity|].
  cbn [serve fmap list_fmap fst snd].
  pose proof (run_state (handler r) clock self) as Hst.
  destruct (run rt (handler r) clock self) as [out self'].
  cbn [snd] in Hst. subst self'. by rewrite IH.
Qed.

Lemma run_embed_route req clock self :
  run rt (embed_route req) clock self
  = (embed_route_outcome rt req clock self, self).
Proof.
  unfold embed_route, embed_route_outcome.
  destruct (EmbedRequest.texts req) as [|t ts] eqn:Hts; [reflexivity|].
  cbn [truthy fmap list_fmap negb].
  destruct (100 <? length (t :: ts))%nat; [reflexivity|].
  apply run_embed_remote.
Qed.

Lemma run_openai_compatible req clock self :
  run rt (openai_compatible req) clock self
  = (openai_outcome rt req clock self, self).
Proof.
  unfold openai_compatible, openai_outcome.
  destruct (negb (truthy (wrap_input req))); [reflexivity|].
  rewrite run_bind, run_embed_remote. cbn [fst].
  destruct (embed_outcome rt (wrap_input req) true clock self) as [r|e];
    [|reflexivity].
  apply run_of_result.
Qed.
End RunFacts.

(** ** Facts about [POST /v1/embeddings] *)

Lemma truthy_false_cases (v : pyval) :
  truthy v = false
  ↔ v = PNone ∨ v = PBool false ∨ v = PInt 0 ∨
    (∃ x, v = PFloat x ∧ PrimFloat.eqb x 0 = true) ∨
    v = PStr "" ∨ v = PList [] ∨ v = PDict ∅.
Proof.
  split.
  - destruct v as [|b|z|x|s|l|d]; cbn [truthy]; intros Hv.
    + by left.
    + right; left. by subst b.
    + do 2 right; left. apply negb_false_iff, Z.eqb_eq in Hv. by subst z.
    + do 3 right; left. exists x. split; [done|by apply negb_false_iff].
    + do 4 right; left. apply negb_false_iff, String.eqb_eq in Hv. by subst s.
    + do 5 right; left. by destruct l.
    + do 6 right. apply negb_false_iff, bool_decide_eq_true in Hv. by subst d.
  - intros [->|[->|[->|[(x & -> & Hx)|[->|[->| ->]]]]]]; try reflexivity.
    cbn [truthy]. by rewrite Hx.
Qed.

Lemma wrap_input_str req s :
  req !! "input" = Some (PStr s) → wrap_input req = PList [PStr s].
Proof. unfold wrap_input. by intros ->. Qed.

Lemma wrap_input_not_str req v :
  req !! "input" = Some v → isinstance_str v = false → wrap_input req = v.
Proof. unfold wrap_input. intros -> Hv. simpl. by rewrite Hv. Qed.

Lemma wrap_input_absent req :
  req !! "input" = None → wrap_input req = PList [].
Proof. unfold wrap_input. by intros ->. Qed.

Lemma sum_split_len_not_http items acc code detail :
  sum_split_len acc items ≠ Raise (HTTPException code detail).
Proof.
  revert acc. induction items as [|t items IH]; intros acc; [discriminate|].
  cbn [sum_split_len]. destruct t; try discriminate. apply IH.
Qed.

Lemma count_tokens_not_http input_text code detail :
  count_tokens input_text ≠ Raise (HTTPException code detail).
Proof.
  unfold count_tokens.
  destruct input_text; try discriminate; apply sum_split_len_not_http.
Qed.

Lemma openai_format_not_http input_text r code detail :
  openai_format input_text r ≠ Raise (HTTPException code detail).
Proof.
  unfold openai_format.
  destruct (py_iter (EmbedResult.embeddings r)) as [embs|e] eqn:He.
  - cbn [mbind result_bind].
    destruct (count_tokens input_text) as [n|e'] eqn:Hn; [discriminate|].
    cbn [mbind result_bind]. intros [= ->].
    by apply count_tokens_not_http in Hn.
  - cbn [mbind result_bind].
    destruct (EmbedResult.embeddings r); try discriminate; by inversion He.
Qed.

(** The response is built from the embeddings and the model of the [embed]
    result, and from nothing else of it. *)
Lemma openai_format_latency input_text r r' :
  same_but_latency r r' →
  openai_format input_text r = openai_format input_text r'.
Proof. unfold openai_format. by intros (-> & _ & _ & ->). Qed.

Lemma enumerate_from_lookup {A} (l : list A) (k i : nat) :
  enumerate_from k l !! i = (λ x, (k + i, x)) <$> l !! i.
Proof.
  revert k i. induction l as [|x l IH]; intros k i; [by destruct i|].
  destruct i as [|i]; cbn [enumerate_from lookup list_lookup].
  - by rewrite Nat.add_0_r.
  - change (enumerate_from (S k) l !! i = (λ x, (k + S i, x)) <$> l !! i).
    rewrite IH. by replace (S k + i) with (k + S i) by lia.
Qed.

Lemma openai_data_lookup (embs : list pyval) (i : nat) :
  (embedding_item <$> enumerate embs) !! i
  = (λ e, {| Embedding.object := "embedding";
             Embedding.index := i;
             Embedding.embedding := e |}) <$> embs !! i.
Proof.
  unfold enumerate. rewrite list_lookup_fmap, enumerate_from_lookup.
  by destruct (embs !! i).
Qed.

Lemma openai_data_length (embs : list pyval) :
  length (embedding_item <$> enumerate embs) = length embs.
Proof.
  rewrite length_fmap. unfold enumerate. generalize 0.
  induction embs as [|e embs IH]; intros k; [reflexivity|].
  cbn [enumerate_from length]. by rewrite IH.
Qed.

Lemma openai_compatible_ext req req' :
  wrap_input req = wrap_input req' →
  openai_compatible req = openai_compatible req'.
Proof. unfold openai_compatible. by intros ->. Qed.

(** Past validation, the handler is one remote call of [embed] with
    normalization on, followed by the formatting of its result. *)
Lemma openai_compatible_accepts req :
  truthy (wrap_input req) = true →
  openai_compatible req
  = RemoteEmbed (wrap_input req) true
      (λ r, of_result (openai_format (wrap_input req) r)).
Proof. unfold openai_compatible. by intros ->. Qed.

Lemma openai_compatible_rejects req :
  truthy (wrap_input req) = false →
  openai_compatible req = Throw (HTTPException 400 "input required").
Proof. unfold openai_compatible. by intros ->. Qed.

Lemma of_result_calls_nothing {A} (r : result A) texts normalize :
  ¬ calls_embed (of_result r) texts normalize.
Proof. destruct r; inversion 1. Qed.

Section OpenAIFacts.
Variable rt : Runtime.

(** The handler answers 400 exactly when the wrapped input tests false. *)
Lemma openai_400_iff_falsy req clock self :
  raises_400 (run rt (openai_compatible req) clock self).1
  ↔ truthy (wrap_input req) = false.
Proof.
  rewrite run_openai_compatible. unfold openai_outcome, raises_400. cbn [fst].
  destruct (truthy (wrap_input req)); cbn [negb]; [|split; eauto].
  split; [|done]. intros [detail Hd].
  destruct (embed_outcome rt (wrap_input req) true clock self) as [r|e] eqn:He.
  - by apply openai_format_not_http in Hd.
  - cbn [mbind result_bind] in Hd. injection Hd as ->.
    by apply embed_outcome_not_http in He.
Qed.

(** The outcome depends on the request through [wrap_input] only, and not
    on the clock: the latency is not part of the response. *)
Lemma openai_outcome_ext req req' clock clock' self :
  wrap_input req = wrap_input req' →
  openai_outcome rt req clock self = openai_outcome rt req' clock' self.
Proof.
  intros Hw. unfold openai_outcome. rewrite <- Hw.
  destruct (negb (truthy (wrap_input req))); [reflexivity|].
  pose proof (embed_outcome_clock rt (wrap_input req) true clock clock' self)
    as Hclock.
  destruct (embed_outcome rt (wrap_input req) true clock self) as [r|e],
    (embed_outcome rt (wrap_input req) true clock' self) as [r'|e'];
    try done.
  - by apply openai_format_latency.
  - by subst e'.
Qed.
End OpenAIFacts.

(** ** The small model keeps the library's contract *)

Lemma toy_model_rows (ts : list string) :
  mapM toy_row (PStr <$> ts)
  = Some ((λ row, PList (PFloat <$> row)) <$> (toy_vector_of <$> ts)).
Proof.
  induction ts as [|s ts IH]; [reflexivity|].
  cbn [fmap list_fmap mapM toy_row]. by rewrite IH.
Qed.

Lemma toy_model_contract : encode_contract toy_vector toy_model.
Proof.
  intros ts normalize a Hts Ha.
  destruct ts as [|s ts]; [done|].
  change (encode toy_model (PList (PStr <$> s :: ts)) normalize)
    with (rows ← mapM toy_row (PStr <$> s :: ts);
          Some {| shape := [length (PStr <$> s :: ts); 2];
                  tolist := PList rows |}) in Ha.
  rewrite toy_model_rows in Ha. cbn [mbind option_bind] in Ha.
  injection Ha as <-. cbn [shape tolist].
  exists 2, (toy_vector_of <$> s :: ts).
  split_and!.
  - by rewrite length_fmap.
  - reflexivity.
  - apply Forall2_fmap_r, Forall_Forall2_diag, Forall_forall.
    intros x _. reflexivity.
  - apply Forall_fmap, Forall_forall. intros x _.
    unfold compose, toy_vector_of. by destruct (String.eqb x "").
Qed.

(** ** Properties of the routes and of the service *)

(** C1.  [POST /embed] answers HTTP 400 exactly when [texts] is empty or
    holds more than 100 strings, whatever the model, the clock and the
    state of the service; a request of exactly 100 texts is not rejected. *)
Theorem embed_route_400_iff (rt : Runtime) (req : EmbedRequest.t)
  (clock : float * float) (self : EmbeddingService) :
  (raises_400 (run rt (embed_route req) clock self).1
   ↔ EmbedRequest.texts req = [] ∨ 100 < length (EmbedRequest.texts req))
  ∧ (length (EmbedRequest.texts req) = 100 →
     ¬ raises_400 (run rt (embed_route req) clock self).1).
Proof.
  rewrite run_embed_route. unfold embed_route_outcome, raises_400. cbn [fst].
  destruct (EmbedRequest.texts req) as [|t ts] eqn:Hts.
  { split; [|discriminate]. split; [by left|eauto]. }
  destruct (Nat.ltb_spec 100 (length (t :: ts))) as [Hlt|Hle].
  - split; [|lia]. split; [by right|eauto].
  - assert (∀ detail,
      embed_outcome rt (PList (PStr <$> t :: ts)) (EmbedRequest.normalize req)
        clock self ≠ Raise (HTTPException 400 detail)) as Hno
      by (intros detail; apply embed_outcome_not_http).
    split; [split|].
    + intros [detail Hd]. by destruct (Hno detail).
    + intros [[=]|Hlt]. lia.
    + intros _ [detail Hd]. by destruct (Hno detail).
Qed.

(** C2.  On a non-empty list of N strings, with a model that keeps the
    library's contract, [embed] succeeds whenever the library call does,
    and a successful call returns count N and as embeddings a list of N
    vectors, the rows of the model's array in the order of the inputs,
    each of length dims.  (The bound N ≤ 100 plays no part.) *)
Theorem embed_result_shape (rt : Runtime)
  (R : bool → string → list float → Prop) (self : EmbeddingService)
  (ts : list string) (normalize : bool) (clock : float * float)
  (Hcontract : ∀ m, model self = Some m → encode_contract R m)
  (Hts : ts ≠ []) :
  (∀ m a, model self = Some m →
     encode m (PList (PStr <$> ts)) normalize = Some a →
     ∃ r, embed rt (PList (PStr <$> ts)) normalize clock self = (Ok r, self))
  ∧ (∀ r self',
       embed rt (PList (PStr <$> ts)) normalize clock self = (Ok r, self') →
       EmbedResult.count r = length ts ∧
       ∃ rows,
         EmbedResult.embeddings r = matrix_value rows ∧
         length rows = length ts ∧
         Forall2 (R normalize) ts rows ∧
         Forall (λ row, length row = EmbedResult.dims r) rows).
Proof.
  split.
  - intros m a Hm Ha. rewrite embed_unfold. unfold embed_outcome.
    rewrite Hm, Ha.
    destruct (Hcontract m Hm ts normalize a Hts Ha) as (d & rows & Hsh & _).
    rewrite Hsh. cbn. eauto.
  - intros r self'. rewrite embed_unfold. unfold embed_outcome.
    destruct (model self) as [m|] eqn:Hm; [|intros [=]].
    destruct (encode m (PList (PStr <$> ts)) normalize) as [a|] eqn:Ha;
      [|intros [=]].
    destruct (Hcontract m eq_refl ts normalize a Hts Ha)
      as (d & rows & Hsh & Hrows & HR & Hlen).
    rewrite Hsh. cbn. intros [= <- <-]. cbn.
    split; [apply length_fmap|].
    exists rows. split_and!; try done.
    symmetry. eapply Forall2_length, HR.
Qed.

Lemma embed_result_shape_witness :
  (∀ m a, model toy_loaded = Some m →
     encode m (PList (PStr <$> ["hello world"; ""])) true = Some a →
     ∃ r, embed toy_rt (PList (PStr <$> ["hello world"; ""])) true toy_clock
            toy_loaded = (Ok r, toy_loaded))
  ∧ (∀ r self',
       embed toy_rt (PList (PStr <$> ["hello world"; ""])) true toy_clock
         toy_loaded = (Ok r, self') →
       EmbedResult.count r = 2 ∧
       ∃ rows,
         EmbedResult.embeddings r = matrix_value rows ∧
         length rows = 2 ∧
         Forall2 (toy_vector true) ["hello world"; ""] rows ∧
         Forall (λ row, length row = EmbedResult.dims r) rows).
Proof.
  apply (embed_result_shape toy_rt toy_vector toy_loaded
           ["hello world"; ""] true toy_clock).
  - intros m [= <-]. apply toy_model_contract.
  - discriminate.
Defined.

(** C3.  A request whose input is the string [s] and a request whose input
    is the array [[s]] are the same program and get the same response,
    status and body, whatever else the two bodies hold and whenever they
    are served. *)
Theorem openai_string_as_singleton (rt : Runtime)
  (req req' : gmap string pyval) (s : string)
  (clock clock' : float * float) (self : EmbeddingService)
  (Hstr : req !! "input" = Some (PStr s))
  (Harr : req' !! "input" = Some (PList [PStr s])) :
  openai_compatible req = openai_compatible req' ∧
  (run rt (openai_compatible req) clock self).1
  = (run rt (openai_compatible req') clock' self).1.
Proof.
  assert (wrap_input req = wrap_input req') as Hw.
  { rewrite (wrap_input_str req s Hstr).
    by rewrite (wrap_input_not_str req' _ Harr). }
  split; [by apply openai_compatible_ext|].
  rewrite !run_openai_compatible. by apply openai_outcome_ext.
Qed.

Lemma openai_string_as_singleton_witness :
  openai_compatible {["input" := PStr "hello world"]}
  = openai_compatible {["input" := PList [PStr "hello world"]]} ∧
  (run toy_rt (openai_compatible {["input" := PStr "hello world"]})
     toy_clock toy_loaded).1
  = (run toy_rt (openai_compatible {["input" := PList [PStr "hello world"]]})
       (3%float, 7%float) toy_loaded).1.
Proof.
  apply (openai_string_as_singleton toy_rt
           {["input" := PStr "hello world"]}
           {["input" := PList [PStr "hello world"]]} "hello world");
    reflexivity.
Defined.

(** C4, as the code has it.  [POST /v1/embeddings] answers HTTP 400
    exactly when the input field is absent or holds a value other than a
    string that tests false: the empty array, the empty object, null,
    false, or a zero number.  Otherwise validation passes and the handler
    calls [embed].  For an input that is a string or an array, or absent,
    the request is rejected exactly when the input is empty in the spec's
    sense. *)
Theorem openai_rejection_condition (rt : Runtime) (req : gmap string pyval)
  (clock : float * float) (self : EmbeddingService) :
  (raises_400 (run rt (openai_compatible req) clock self).1
   ↔ req !! "input" = None ∨
     req !! "input" = Some (PList []) ∨
     req !! "input" = Some (PDict ∅) ∨
     req !! "input" = Some PNone ∨
     req !! "input" = Some (PBool false) ∨
     req !! "input" = Some (PInt 0) ∨
     ∃ x, req !! "input" = Some (PFloat x) ∧ PrimFloat.eqb x 0 = true)
  ∧ (¬ raises_400 (run rt (openai_compatible req) clock self).1 →
     openai_compatible req
     = RemoteEmbed (wrap_input req) true
         (λ r, of_result (openai_format (wrap_input req) r)))
  ∧ (req !! "input" = None ∨
     (∃ s, req !! "input" = Some (PStr s)) ∨
     (∃ l, req !! "input" = Some (PList l)) →
     (raises_400 (run rt (openai_compatible req) clock self).1
      ↔ input_empty req = true)).
Proof.
  rewrite openai_400_iff_falsy. split_and!.
  - destruct (req !! "input") as [v|] eqn:Hin.
    + destruct (isinstance_str v) eqn:Hstr.
      * destruct v; try discriminate.
        rewrite (wrap_input_str req s Hin). split; [done|].
        intros [?|[?|[?|[?|[?|[?|(x & ? & _)]]]]]]; discriminate.
      * rewrite (wrap_input_not_str req v Hin Hstr), truthy_false_cases.
        split.
        -- intros [->|[->|[->|[(x & -> & Hx)|[->|[->| ->]]]]]]; try tauto.
           ++ do 6 right. by exists x.
           ++ discriminate.
        -- intros [?|[[= ->]|[[= ->]|[[= ->]|[[= ->]|[[= ->]|(x & [= ->] & Hx)]]]]]];
             try discriminate; try tauto.
           do 3 right; left. by exists x.
    + rewrite (wrap_input_absent req Hin). split; [by left|done].
  - intros Hok. apply openai_compatible_accepts.
    destruct (truthy (wrap_input req)); [done|by destruct Hok].
  - unfold input_empty.
    intros [Hin|[[s Hin]|[l Hin]]]; rewrite Hin.
    + by rewrite (wrap_input_absent req Hin).
    + by rewrite (wrap_input_str req s Hin).
    + rewrite (wrap_input_not_str req (PList l) Hin eq_refl).
      by destruct l.
Qed.

(** C4, as the claim has it, fails: the body [{"input": 0}] holds an input
    that is present and is not empty, and the handler answers 400. *)
Lemma openai_rejects_zero_input :
  input_empty {["input" := PInt 0]} = false ∧
  raises_400
    (run toy_rt (openai_compatible {["input" := PInt 0]})
       toy_clock toy_loaded).1.
Proof. split; [reflexivity|]. by exists "input required". Qed.

(** C5.  Once [load_model] has returned, every call of [health], after any
    requests served since, returns status "healthy" with the model
    identifier, the device name and dims. *)
Theorem health_when_loaded (rt : Runtime) (self0 self : EmbeddingService)
  (Hload : load_model rt self0 = (Ok (), self)) :
  ∃ name,
    cuda_get_device_name rt 0 = Some name ∧
    ∀ reqs,
      (health rt (serve rt reqs self).2).1
      = Ok {| HealthResult.status := "healthy";
              HealthResult.model := model_name self0;
              HealthResult.gpu := name;
              HealthResult.dims := 1024 |}.
Proof.
  destruct (load_model_Ok rt self0 self Hload) as (m & name & _ & Hname & ->).
  exists name. split; [done|]. intros reqs.
  rewrite serve_unfold, health_unfold. unfold health_outcome.
  by rewrite Hname.
Qed.

Lemma health_when_loaded_witness :
  ∃ name,
    cuda_get_device_name toy_rt 0 = Some name ∧
    ∀ reqs,
      (health toy_rt (serve toy_rt reqs toy_loaded).2).1
      = Ok {| HealthResult.status := "healthy";
              HealthResult.model := "NovaSearch/stella_en_400M_v5";
              HealthResult.gpu := name;
              HealthResult.dims := 1024 |}.
Proof.
  apply (health_when_loaded toy_rt new_EmbeddingService toy_loaded).
  reflexivity.
Defined.

(** C6.  A successful response of [POST /v1/embeddings] has object "list",
    the model of the [embed] result, as data one entry per vector of the
    [embed] result, the i-th with object "embedding", index i and that
    vector, and a usage record whose prompt_tokens and total_tokens are the
    word count of the input. *)
Theorem openai_response_format (rt : Runtime) (req : gmap string pyval)
  (clock : float * float) (self self' : EmbeddingService)
  (resp : OpenAIResponse.t)
  (Hrun : run rt (openai_compatible req) clock self = (Ok resp, self')) :
  ∃ r embs n,
    embed rt (wrap_input req) true clock self = (Ok r, self) ∧
    py_iter (EmbedResult.embeddings r) = Ok embs ∧
    count_tokens (wrap_input req) = Ok n ∧
    OpenAIResponse.object resp = "list" ∧
    OpenAIResponse.model resp = EmbedResult.model r ∧
    length (OpenAIResponse.data resp) = length embs ∧
    (∀ i, OpenAIResponse.data resp !! i
          = (λ e, {| Embedding.object := "embedding";
                     Embedding.index := i;
                     Embedding.embedding := e |}) <$> embs !! i) ∧
    OpenAIResponse.usage resp
    = {| Usage.prompt_tokens := n; Usage.total_tokens := n |}.
Proof.
  rewrite run_openai_compatible in Hrun. injection Hrun as Hout _.
  unfold openai_outcome in Hout.
  destruct (negb (truthy (wrap_input req))); [discriminate|].
  destruct (embed_outcome rt (wrap_input req) true clock self) as [r|e] eqn:He;
    [|discriminate].
  cbn [mbind result_bind] in Hout. unfold openai_format in Hout.
  destruct (py_iter (EmbedResult.embeddings r)) as [embs|e] eqn:Hembs;
    [|discriminate].
  cbn [mbind result_bind] in Hout.
  destruct (count_tokens (wrap_input req)) as [n|e] eqn:Hn; [|discriminate].
  cbn [mbind result_bind mret result_ret] in Hout. injection Hout as <-.
  exists r, embs, n.
  cbn [OpenAIResponse.object OpenAIResponse.model OpenAIResponse.data
       OpenAIResponse.usage].
  split_and!; try done.
  - by rewrite embed_unfold, He.
  - apply openai_data_length.
  - apply openai_data_lookup.
Qed.

Lemma openai_response_format_witness :
  ∃ r embs n,
    embed toy_rt (wrap_input toy_request) true toy_clock toy_loaded
    = (Ok r, toy_loaded) ∧
    py_iter (EmbedResult.embeddings r) = Ok embs ∧
    count_tokens (wrap_input toy_request) = Ok n ∧
    OpenAIResponse.object toy_response = "list" ∧
    OpenAIResponse.model toy_response = EmbedResult.model r ∧
    length (OpenAIResponse.data toy_response) = length embs ∧
    (∀ i, OpenAIResponse.data toy_response !! i
          = (λ e, {| Embedding.object := "embedding";
                     Embedding.index := i;
                     Embedding.embedding := e |}) <$> embs !! i) ∧
    OpenAIResponse.usage toy_response
    = {| Usage.prompt_tokens := n; Usage.total_tokens := n |}.
Proof.
  apply (openai_response_format toy_rt toy_request toy_clock
           toy_loaded toy_loaded toy_response).
  vm_compute. reflexivity.
Defined.

(** C7.  No operation assigns to the service after the model is loaded:
    [embed], [health] and every handler leave the attributes of the
    service (the model handle among them) as they found them, and a
    sequence of requests is answered request by request from the same
    state, so no response depends on the requests served before. *)
Theorem service_state_unchanged (rt : Runtime) :
  (∀ texts normalize clock self,
     (embed rt texts normalize clock self).2 = self)
  ∧ (∀ self, (health rt self).2 = self)
  ∧ (∀ r clock self, (run rt (handler r) clock self).2 = self)
  ∧ (∀ reqs self,
       serve rt reqs self
       = ((λ rc, (run rt (handler rc.1) rc.2 self).1) <$> reqs, self)).
Proof.
  split_and!.
  - intros. by rewrite embed_unfold.
  - intros. by rewrite health_unfold.
  - intros. apply run_state.
  - apply serve_unfold.
Qed.

(** C9.  A request that passes validation makes the remote call
    [embed(input_text, normalize=True)]; the handler makes no call of
    [embed] with other arguments; and no field of the body other than
    ["input"], a ["normalize"] flag included, changes what the handler
    does. *)
Theorem openai_always_normalizes (rt : Runtime) (req : gmap string pyval)
  (clock : float * float) (self : EmbeddingService) :
  (¬ raises_400 (run rt (openai_compatible req) clock self).1 →
   calls_embed (openai_compatible req) (wrap_input req) true)
  ∧ (∀ texts normalize,
       calls_embed (openai_compatible req) texts normalize →
       normalize = true ∧ texts = wrap_input req)
  ∧ (∀ (key : string) v,
       key ≠ "input" →
       openai_compatible (<[key := v]> req) = openai_compatible req).
Proof.
  split_and!.
  - rewrite openai_400_iff_falsy. intros Hok.
    rewrite openai_compatible_accepts; [constructor|].
    by destruct (truthy (wrap_input req)).
  - intros texts normalize Hcall.
    destruct (truthy (wrap_input req)) eqn:Hv.
    + rewrite (openai_compatible_accepts req Hv) in Hcall.
      inversion Hcall as [| ? ? ? r ? ? Hk |]; subst; [done|].
      by apply of_result_calls_nothing in Hk.
    + rewrite (openai_compatible_rejects req Hv) in Hcall. inversion Hcall.
  - intros key v Hkey. apply openai_compatible_ext.
    unfold wrap_input. by rewrite lookup_insert_ne.
Qed.

(** C10.  A request whose input is the empty string is not answered 400:
    the string is wrapped into [[""]], [embed] is called on that
    one-element list with normalization on, and when [embed] returns, the
    response is built from its result, with a count of one text and no
    tokens. *)
Theorem openai_empty_string_accepted (rt : Runtime)
  (req : gmap string pyval) (clock : float * float)
  (self : EmbeddingService)
  (Hin : req !! "input" = Some (PStr "")) :
  wrap_input req = PList [PStr ""] ∧
  ¬ raises_400 (run rt (openai_compatible req) clock self).1 ∧
  openai_compatible req
  = RemoteEmbed (PList [PStr ""]) true
      (λ r, of_result (openai_format (PList [PStr ""]) r)) ∧
  (∀ r embs,
     embed rt (PList [PStr ""]) true clock self = (Ok r, self) →
     py_iter (EmbedResult.embeddings r) = Ok embs →
     EmbedResult.count r = 1 ∧
     (run rt (openai_compatible req) clock self).1
     = Ok {| OpenAIResponse.object := "list";
             OpenAIResponse.model := EmbedResult.model r;
             OpenAIResponse.data := embedding_item <$> enumerate embs;
             OpenAIResponse.usage :=
               {| Usage.prompt_tokens := 0; Usage.total_tokens := 0 |} |}).
Proof.
  pose proof (wrap_input_str req "" Hin) as Hw.
  split_and!.
  - done.
  - rewrite openai_400_iff_falsy, Hw. discriminate.
  - rewrite openai_compatible_accepts; by rewrite Hw.
  - intros r embs Hr Hembs.
    rewrite run_openai_compatible. unfold openai_outcome. rewrite Hw.
    rewrite embed_unfold in Hr. injection Hr as Hr. rewrite Hr.
    cbn [truthy negb mbind result_bind fst]. unfold openai_format.
    rewrite Hembs. split; [|reflexivity].
    unfold embed_outcome in Hr.
    destruct (model self) as [m|]; [|discriminate].
    destruct (encode m (PList [PStr ""]) true) as [a|]; [|discriminate].
    destruct (shape a !! 1); [|discriminate].
    by injection Hr as <-.
Qed.

Lemma openai_empty_string_accepted_witness :
  wrap_input {["input" := PStr ""]} = PList [PStr ""] ∧
  ¬ raises_400
      (run toy_rt (openai_compatible {["input" := PStr ""]})
         toy_clock toy_loaded).1 ∧
  openai_compatible {["input" := PStr ""]}
  = RemoteEmbed (PList [PStr ""]) true
      (λ r, of_result (openai_format (PList [PStr ""]) r)) ∧
  (∀ r embs,
     embed toy_rt (PList [PStr ""]) true toy_clock toy_loaded
     = (Ok r, toy_loaded) →
     py_iter (EmbedResult.embeddings r) = Ok embs →
     EmbedResult.count r = 1 ∧
     (run toy_rt (openai_compatible {["input" := PStr ""]})
        toy_clock toy_loaded).1
     = Ok {| OpenAIResponse.object := "list";
             OpenAIResponse.model := EmbedResult.model r;
             OpenAIResponse.data := embedding_item <$> enumerate embs;
             OpenAIResponse.usage :=
               {| Usage.prompt_tokens := 0; Usage.total_tokens := 0 |} |}).
Proof.
  apply (openai_empty_string_accepted toy_rt {["input" := PStr ""]}
           toy_clock toy_loaded).
  reflexivity.
Defined.


(** ** More of the service container *)

(** X2.  [load_model] returns exactly when the constructor, the warmup
    inference and the device query all succeed, and then the instance holds
    the new model under its unchanged name.  When it fails, the error is
    the third-party one, the name is unchanged, and the instance is either
    untouched (the constructor failed) or already holds the new model (the
    warmup or the device query failed). *)
Theorem load_model_outcomes (rt : Runtime) (self0 : EmbeddingService) :
  (∀ self,
     load_model rt self0 = (Ok (), self)
     ↔ ∃ m a name,
         new_SentenceTransformer rt (model_name self0) = Some m ∧
         encode m (PList [PStr "warmup"]) true = Some a ∧
         cuda_get_device_name rt 0 = Some name ∧
         self = {| model_name := model_name self0; model := Some m |})
  ∧ (∀ e self,
       load_model rt self0 = (Raise e, self) →
       e = ExternalError ∧
       model_name self = model_name self0 ∧
       ((new_SentenceTransformer rt (model_name self0) = None ∧ self = self0)
        ∨ ∃ m, new_SentenceTransformer rt (model_name self0) = Some m ∧
               model self = Some m)).
Proof.
  unfold load_model, get_self, put_self, external, mbind, mret, M_bind, M_ret.
  cbn beta iota zeta.
  destruct (new_SentenceTransformer rt (model_name self0)) as [m|] eqn:Hm.
  - destruct (encode m (PList [PStr "warmup"]) true) as [a|] eqn:Ha;
      [destruct (cuda_get_device_name rt 0) as [name|] eqn:Hname|].
    + split.
      * intros self. split; [intros [= <-]; by exists m, a, name|].
        by intros (m' & a' & name' & [= <-] & _ & _ & ->).
      * intros e self [=].
    + split.
      * intros self. split; [intros [=]|].
        by intros (m' & a' & name' & _ & _ & [=] & _).
      * intros e self [= <- <-]. split_and!; [done..|]. right. by eauto.
    + split.
      * intros self. split; [intros [=]|].
        intros (m' & a' & name' & [= <-] & Ha' & _). congruence.
      * intros e self [= <- <-]. split_and!; [done..|]. right. by eauto.
  - split.
    + intros self. split; [intros [=]|].
      by intros (m' & a' & name' & [=] & _).
    + intros e self [= <- <-]. split_and!; [done..|]. by left.
Qed.

(** X3.  Which exception [embed] raises, and when it returns:
    [AttributeError] exactly when no model was loaded; the third-party
    error exactly when [encode] fails; [IndexError] exactly when the array
    has fewer than two dimensions; [TypeError] exactly when all of these
    went well and [texts] has no length; a result otherwise, and never
    another exception. *)
Theorem embed_error_cases (rt : Runtime) (texts : pyval) (normalize : bool)
  (clock : float * float) (self : EmbeddingService) :
  ((embed rt texts normalize clock self).1 = Raise AttributeError
   ↔ model self = None)
  ∧ ((embed rt texts normalize clock self).1 = Raise ExternalError
     ↔ ∃ m, model self = Some m ∧ encode m texts normalize = None)
  ∧ ((embed rt texts normalize clock self).1 = Raise IndexError
     ↔ ∃ m a, model self = Some m ∧ encode m texts normalize = Some a ∧
              shape a !! 1 = None)
  ∧ ((embed rt texts normalize clock self).1 = Raise TypeError
     ↔ ∃ m a d, model self = Some m ∧ encode m texts normalize = Some a ∧
                shape a !! 1 = Some d ∧ py_len texts = Raise TypeError)
  ∧ ((∃ r, (embed rt texts normalize clock self).1 = Ok r)
     ↔ ∃ m a d n, model self = Some m ∧ encode m texts normalize = Some a ∧
                  shape a !! 1 = Some d ∧ py_len texts = Ok n)
  ∧ (∀ e, (embed rt texts normalize clock self).1 = Raise e →
          e = AttributeError ∨ e = ExternalError ∨ e = IndexError ∨
          e = TypeError).
Proof.
  rewrite embed_unfold. cbn [fst]. unfold embed_outcome.
  destruct (model self) as [m|] eqn:Hm;
    [destruct (encode m texts normalize) as [a|] eqn:Ha;
       [destruct (shape a !! 1) as [d|] eqn:Hd;
          [destruct (py_len texts) as [n|e] eqn:Hlen;
             [|assert (e = TypeError) as ->
                 by (destruct texts; cbn in Hlen; congruence)]|]|]|];
    split_and!;
    solve
      [ split; [intros [=]|intros H; decompose [ex and] H; congruence]
      | split; [intros [r [=]]|intros H; decompose [ex and] H; congruence]
      | split; [intros _; repeat eexists; eauto|done]
      | split; [intros _; repeat eexists; eauto|intros _; eauto]
      | intros e [=]
      | intros e [= <-]; tauto ].
Qed.

(** X4.  Once [load_model] has returned, [embed] never fails for want of
    a model, whatever requests were served in between, and every result
    it returns names the model the service was loaded with. *)
Theorem embed_after_load (rt : Runtime) (self0 self : EmbeddingService)
  (reqs : list (request * (float * float))) (texts : pyval)
  (normalize : bool) (clock : float * float)
  (Hload : load_model rt self0 = (Ok (), self)) :
  (embed rt texts normalize clock (serve rt reqs self).2).1
  ≠ Raise AttributeError
  ∧ ∀ r, (embed rt texts normalize clock (serve rt reqs self).2).1 = Ok r →
         EmbedResult.model r = model_name self0.
Proof.
  destruct (load_model_Ok rt self0 self Hload) as (m & name & _ & _ & ->).
  rewrite serve_unfold, embed_unfold. cbn [fst snd].
  unfold embed_outcome. cbn [model model_name].
  destruct (encode m texts normalize) as [a|]; [|by split].
  destruct (shape a !! 1); [|by split].
  destruct texts; cbn [py_len]; (split; [done|]); intros r [= <-]; done.
Qed.

Lemma embed_after_load_witness :
  (embed toy_rt (PList [PStr "hello"]) false toy_clock
     (serve toy_rt [(GET_health, toy_clock);
                    (POST_v1_embeddings toy_request, toy_clock)]
        toy_loaded).2).1
  ≠ Raise AttributeError
  ∧ ∀ r,
      (embed toy_rt (PList [PStr "hello"]) false toy_clock
         (serve toy_rt [(GET_health, toy_clock);
                        (POST_v1_embeddings toy_request, toy_clock)]
            toy_loaded).2).1 = Ok r →
      EmbedResult.model r = "NovaSearch/stella_en_400M_v5".
Proof.
  apply (embed_after_load toy_rt new_EmbeddingService toy_loaded
           [(GET_health, toy_clock);
            (POST_v1_embeddings toy_request, toy_clock)]
           (PList [PStr "hello"]) false toy_clock).
  reflexivity.
Defined.

(** X5.  [health] does not look at the model: it returns the same record
    whether or not a model is loaded, it succeeds exactly when the device
    query does, and its dims is the constant 1024, not a dimension read
    from the model.  [GET /health] returns what [health] returns. *)
Theorem health_ignores_model (rt : Runtime) (self : EmbeddingService)
  (clock : float * float) :
  (∀ m, (health rt {| model_name := model_name self; model := m |}).1
        = (health rt self).1)
  ∧ ((∃ r, (health rt self).1 = Ok r)
     ↔ ∃ name, cuda_get_device_name rt 0 = Some name)
  ∧ (∀ r, (health rt self).1 = Ok r →
          HealthResult.status r = "healthy" ∧
          HealthResult.model r = model_name self ∧
          HealthResult.dims r = 1024)
  ∧ run rt health_route clock self = health rt self.
Proof.
  split_and!.
  - intros m. by rewrite !health_unfold.
  - rewrite health_unfold. cbn [fst]. unfold health_outcome.
    destruct (cuda_get_device_name rt 0) as [name|].
    + split; eauto.
    + split; [by intros [r [=]]|by intros [name [=]]].
  - rewrite health_unfold. cbn [fst]. unfold health_outcome.
    destruct (cuda_get_device_name rt 0); [|intros r [=]].
    by intros r [= <-].
  - unfold health_route, service_health_remote.
    rewrite run_RemoteHealth, health_unfold.
    by destruct (health_outcome rt self).
Qed.

(** X6.  [keep_warm] makes one [health] call and nothing else: it never
    calls [embed], it leaves the service as it was, and it fails exactly
    when the device query fails. *)
Theorem keep_warm_only_pings (rt : Runtime) (clock : float * float)
  (self : EmbeddingService) :
  never_calls_embed keep_warm
  ∧ run rt keep_warm clock self
    = (match cuda_get_device_name rt 0 with
       | Some _ => Ok ()
       | None => Raise ExternalError
       end, self).
Proof.
  split.
  - intros texts normalize Hcall.
    inversion Hcall as [| |k r ? ? Hk]; subst. inversion Hk.
  - change keep_warm with (RemoteHealth (λ _, Return ())).
    rewrite run_RemoteHealth. unfold health_outcome.
    by destruct (cuda_get_device_name rt 0).
Qed.

(** ** More of the routes *)

(** X7.  [POST /embed] tells its two rejections apart by the detail
    message, makes no remote call for a rejected request, and for an
    accepted one is a pass-through: one call of [embed] on the texts with
    the request's own normalize flag, whose result or exception is the
    response, unchanged. *)
Theorem embed_route_outcomes (rt : Runtime) (req : EmbedRequest.t)
  (clock : float * float) (self : EmbeddingService) :
  (EmbedRequest.texts req = [] →
   run rt (embed_route req) clock self
   = (Raise (HTTPException 400 "texts array required"), self)
   ∧ never_calls_embed (embed_route req))
  ∧ (100 < length (EmbedRequest.texts req) →
     run rt (embed_route req) clock self
     = (Raise (HTTPException 400 "max 100 texts per request"), self)
     ∧ never_calls_embed (embed_route req))
  ∧ (EmbedRequest.texts req ≠ [] →
     (length (EmbedRequest.texts req) ≤ 100)%nat →
     run rt (embed_route req) clock self
     = embed rt (PList (PStr <$> EmbedRequest.texts req))
         (EmbedRequest.normalize req) clock self
     ∧ ∀ texts normalize,
         calls_embed (embed_route req) texts normalize
         ↔ texts = PList (PStr <$> EmbedRequest.texts req) ∧
           normalize = EmbedRequest.normalize req).
Proof.
  rewrite run_embed_route, embed_unfold.
  unfold embed_route_outcome, embed_route, never_calls_embed.
  destruct (EmbedRequest.texts req) as [|t ts] eqn:Hts.
  { split_and!; [|cbn [length]; lia|done].
    intros _. split; [done|]. intros texts normalize. inversion 1. }
  cbn [truthy fmap list_fmap negb].
  destruct (Nat.ltb_spec 100 (length (t :: ts))) as [Hlt|Hle].
  - split_and!; [done| |lia].
    intros _. split; [done|]. intros texts normalize. inversion 1.
  - split_and!; [done|lia|]. intros _ _. split; [done|].
    intros texts normalize. unfold service_embed_remote. split.
    + inversion 1 as [| ? ? ? r ? ? Hk |]; subst; [done|inversion Hk].
    + intros [-> ->]. constructor.
Qed.

(** X8.  Of all the requests the web function serves, only the two POST
    validations answer 400: [GET /health] and the keep-warm ping never
    do, [POST /embed] does exactly on an empty or oversized batch, and
    [POST /v1/embeddings] exactly when the wrapped input tests false. *)
Theorem only_validation_answers_400 (rt : Runtime) (r : request)
  (clock : float * float) (self : EmbeddingService) :
  raises_400 (run rt (handler r) clock self).1
  ↔ match r with
    | GET_health | Scheduled_keep_warm => False
    | POST_embed req =>
        EmbedRequest.texts req = [] ∨ 100 < length (EmbedRequest.texts req)
    | POST_v1_embeddings req => truthy (wrap_input req) = false
    end.
Proof.
  assert (∀ A B (g : A → B) (p : prog A),
            raises_400 (run rt (g <$> p) clock self).1
            ↔ raises_400 (run rt p clock self).1) as Hfmap.
  { intros A B g p.
    change (g <$> p) with (p ≫= λ a, Return (g a)). rewrite run_bind.
    unfold raises_400.
    destruct (run rt p clock self).1 as [a|e]; cbn [fst run].
    - split; by intros [detail [=]].
    - split; intros [detail [= ->]]; by eauto. }
  destruct r as [|req|req|]; cbn [handler]; rewrite Hfmap.
  - unfold health_route, service_health_remote, raises_400.
    rewrite run_RemoteHealth. unfold health_outcome.
    destruct (cuda_get_device_name rt 0); split; try done;
      by intros [detail [=]].
  - rewrite run_embed_route. cbn [fst].
    unfold embed_route_outcome, raises_400.
    destruct (EmbedRequest.texts req) as [|t ts]; [split; eauto|].
    destruct (Nat.ltb_spec 100 (length (t :: ts))) as [Hlt|Hle].
    + split; eauto.
    + split.
      * intros [detail Hd]. by apply embed_outcome_not_http in Hd.
      * intros [[=]|?]. lia.
  - apply openai_400_iff_falsy.
  - unfold raises_400.
    change keep_warm with (RemoteHealth (λ _, Return ())).
    rewrite run_RemoteHealth. unfold health_outcome.
    destruct (cuda_get_device_name rt 0); split; try done;
      by intros [detail [=]].
Qed.

(** ** Words and tokens *)










Lemma sum_split_len_strings (acc : nat) (ts : list string) :
  sum_split_len acc (PStr <$> ts) = Ok (acc + word_total ts).
Proof.
  revert acc. induction ts as [|t ts IH]; intros acc.
  - cbn. by rewrite Nat.add_0_r.
  - cbn [fmap list_fmap sum_split_len split_len mbind result_bind].
    change (sum_split_len (acc + length (str_split t)) (PStr <$> ts)
            = Ok (acc + word_total (t :: ts))).
    rewrite IH. unfold word_total. cbn [sum_list_with]. f_equal. lia.
Qed.

Lemma sum_split_len_Ok (acc n : nat) (l : list pyval) :
  sum_split_len acc l = Ok n → ∃ ts, l = PStr <$> ts.
Proof.
  revert acc. induction l as [|v l IH]; intros acc; [by exists []|].
  cbn [sum_split_len]. destruct v; try discriminate.
  cbn [split_len mbind result_bind]. intros Hl.
  destruct (IH _ Hl) as [ts ->]. by exists (s :: ts).
Qed.

Lemma sum_split_len_Raise (acc : nat) (l : list pyval) (e : exn) :
  sum_split_len acc l = Raise e →
  e = AttributeError ∧ ∃ v, v ∈ l ∧ isinstance_str v = false.
Proof.
  revert acc. induction l as [|v l IH]; intros acc; [discriminate|].
  cbn [sum_split_len].
  destruct v; cbn [split_len mbind result_bind];
    try (intros [= <-]; split; [done|]; eexists; split; [by left|done]).
  intros Hl. destruct (IH _ Hl) as (-> & v & Hv & Hstr).
  split; [done|]. exists v. split; [by right|done].
Qed.

(** X10.  The token count of an array input: it is the total number of
    words when every item is a string, so it adds up over concatenated
    inputs, and the count fails, with an [AttributeError], exactly when
    some item is not a string. *)
Theorem count_tokens_of_list :
  (∀ l n, count_tokens (PList l) = Ok n
          ↔ ∃ ts, l = PStr <$> ts ∧ n = word_total ts)
  ∧ (∀ l, (∃ e, count_tokens (PList l) = Raise e)
          ↔ ∃ v, v ∈ l ∧ isinstance_str v = false)
  ∧ (∀ l e, count_tokens (PList l) = Raise e → e = AttributeError)
  ∧ (∀ ts1 ts2, word_total (ts1 ++ ts2) = word_total ts1 + word_total ts2).
Proof.
  unfold count_tokens. cbn [py_iter mbind result_bind]. split_and!.
  - intros l n. split.
    + intros Hn. destruct (sum_split_len_Ok _ _ _ Hn) as [ts ->].
      rewrite sum_split_len_strings in Hn. injection Hn as <-. by exists ts.
    + intros (ts & -> & ->). by rewrite sum_split_len_strings.
  - intros l. split.
    + intros [e He]. by apply sum_split_len_Raise in He as [_ ?].
    + intros (v & Hv & Hstr).
      destruct (sum_split_len 0 l) as [n|e] eqn:Hn; [|by eauto].
      destruct (sum_split_len_Ok _ _ _ Hn) as [ts ->].
      apply list_elem_of_fmap in Hv as (t & -> & _). discriminate.
  - intros l e He. by apply sum_split_len_Raise in He as [? _].
  - intros ts1 ts2. apply sum_list_with_app.
Qed.

(** ** More of [POST /v1/embeddings] *)

Lemma wrap_input_strings req (ts : list string) :
  req !! "input" = Some (PList (PStr <$> ts)) →
  wrap_input req = PList (PStr <$> ts).
Proof. intros Hin. by apply wrap_input_not_str. Qed.

Lemma truthy_strings (ts : list string) :
  ts ≠ [] → truthy (PList (PStr <$> ts)) = true.
Proof. by destruct ts. Qed.

(** X11.  The limit of 100 texts is a limit of [POST /embed] alone: the
    same batch of more than 100 strings that [/embed] answers with 400 is
    accepted by [/v1/embeddings], which sends the whole batch to [embed]. *)
Theorem openai_has_no_batch_limit (rt : Runtime) (ts : list string)
  (normalize : bool) (req : gmap string pyval) (clock : float * float)
  (self : EmbeddingService)
  (Hlen : 100 < length ts)
  (Hin : req !! "input" = Some (PList (PStr <$> ts))) :
  raises_400
    (run rt (embed_route {| EmbedRequest.texts := ts;
                            EmbedRequest.normalize := normalize |})
       clock self).1
  ∧ ¬ raises_400 (run rt (openai_compatible req) clock self).1
  ∧ calls_embed (openai_compatible req) (PList (PStr <$> ts)) true.
Proof.
  assert (ts ≠ []) as Hts by (intros ->; cbn in Hlen; lia).
  pose proof (wrap_input_strings req ts Hin) as Hw.
  pose proof (truthy_strings ts Hts) as Htrue.
  split_and!.
  - rewrite run_embed_route. unfold embed_route_outcome.
    cbn [EmbedRequest.texts fst].
    destruct ts as [|t ts]; [done|].
    destruct (Nat.ltb_spec 100 (length (t :: ts))); [|lia].
    by exists "max 100 texts per request".
  - rewrite openai_400_iff_falsy, Hw, Htrue. discriminate.
  - rewrite openai_compatible_accepts; rewrite Hw; [constructor|done].
Qed.

Lemma openai_has_no_batch_limit_witness :
  raises_400
    (run toy_rt
       (embed_route {| EmbedRequest.texts := replicate 101 "a";
                       EmbedRequest.normalize := true |})
       toy_clock toy_loaded).1
  ∧ ¬ raises_400
        (run toy_rt
           (openai_compatible
              {["input" := PList (PStr <$> replicate 101 "a")]})
           toy_clock toy_loaded).1
  ∧ calls_embed
      (openai_compatible {["input" := PList (PStr <$> replicate 101 "a")]})
      (PList (PStr <$> replicate 101 "a")) true.
Proof.
  apply (openai_has_no_batch_limit toy_rt (replicate 101 "a") true
           {["input" := PList (PStr <$> replicate 101 "a")]}
           toy_clock toy_loaded).
  - rewrite length_replicate. lia.
  - reflexivity.
Defined.

(** X12.  Only three kinds of input can be answered successfully by
    [POST /v1/embeddings]: a string, a non-empty array whose items are all
    strings, or a non-empty object.  A number, a boolean, null, or an
    array holding anything but strings never gets a successful response. *)
Theorem openai_success_input_shape (rt : Runtime) (req : gmap string pyval)
  (clock : float * float) (self self' : EmbeddingService)
  (resp : OpenAIResponse.t)
  (Hrun : run rt (openai_compatible req) clock self = (Ok resp, self')) :
  (∃ s, req !! "input" = Some (PStr s))
  ∨ (∃ ts, ts ≠ [] ∧ req !! "input" = Some (PList (PStr <$> ts)))
  ∨ (∃ d, d ≠ ∅ ∧ req !! "input" = Some (PDict d)).
Proof.
  rewrite run_openai_compatible in Hrun. injection Hrun as Hout _.
  unfold openai_outcome in Hout.
  destruct (truthy (wrap_input req)) eqn:Htrue; [|discriminate].
  cbn [negb] in Hout.
  destruct (embed_outcome rt (wrap_input req) true clock self) as [r|e] eqn:He;
    [|discriminate].
  cbn [mbind result_bind] in Hout. unfold openai_format in Hout.
  destruct (py_iter (EmbedResult.embeddings r)) as [embs|e]; [|discriminate].
  cbn [mbind result_bind] in Hout.
  destruct (count_tokens (wrap_input req)) as [n|e] eqn:Hn; [|discriminate].
  clear Hout.
  destruct (req !! "input") as [v|] eqn:Hin.
  2:{ by rewrite (wrap_input_absent req Hin) in Htrue. }
  destruct v as [|b|z|x|s|l|d]; try (left; by eauto).
  all: rewrite (wrap_input_not_str req _ Hin eq_refl) in *.
  1-4: discriminate.
  - right; left. unfold count_tokens in Hn. cbn [py_iter mbind result_bind] in Hn.
    destruct (sum_split_len_Ok _ _ _ Hn) as [ts ->].
    exists ts. split; [|done]. intros ->. discriminate.
  - right; right. exists d. split; [|done]. intros ->. discriminate.
Qed.

Lemma openai_success_input_shape_witness :
  (∃ s, toy_request !! "input" = Some (PStr s))
  ∨ (∃ ts, ts ≠ [] ∧ toy_request !! "input" = Some (PList (PStr <$> ts)))
  ∨ (∃ d, d ≠ ∅ ∧ toy_request !! "input" = Some (PDict d)).
Proof.
  apply (openai_success_input_shape toy_rt toy_request toy_clock
           toy_loaded toy_loaded toy_response).
  vm_compute. reflexivity.
Defined.



(** X14.  End to end on an array of N strings: with a loaded model that
    keeps the library's contract and an [encode] call that succeeds,
    [POST /v1/embeddings] succeeds, and its response has N data entries,
    the rows of the model in the order of the inputs, all of one length,
    the service's model name, and the total word count of the inputs as
    both token counts. *)
Theorem openai_list_end_to_end (rt : Runtime)
  (R : bool → string → list float → Prop) (self : EmbeddingService)
  (m : SentenceTransformer) (a : ndarray) (ts : list string)
  (req : gmap string pyval) (clock : float * float)
  (Hm : model self = Some m)
  (Hcontract : encode_contract R m)
  (Hts : ts ≠ [])
  (Hin : req !! "input" = Some (PList (PStr <$> ts)))
  (Ha : encode m (PList (PStr <$> ts)) true = Some a) :
  ∃ d rows,
    length rows = length ts ∧
    Forall2 (R true) ts rows ∧
    Forall (λ row, length row = d) rows ∧
    run rt (openai_compatible req) clock self
    = (Ok {| OpenAIResponse.object := "list";
             OpenAIResponse.model := model_name self;
             OpenAIResponse.data :=
               embedding_item <$>
               enumerate ((λ row, PList (PFloat <$> row)) <$> rows);
             OpenAIResponse.usage :=
               {| Usage.prompt_tokens := word_total ts;
                  Usage.total_tokens := word_total ts |} |}, self).
Proof.
  destruct (Hcontract ts true a Hts Ha) as (d & rows & Hsh & Hrows & HR & Hlen).
  exists d, rows. split_and!; [symmetry; eapply Forall2_length, HR|done..|].
  rewrite run_openai_compatible. f_equal. unfold openai_outcome.
  rewrite (wrap_input_strings req _ Hin), truthy_strings by done.
  cbn [negb]. unfold embed_outcome. rewrite Hm, Ha, Hsh.
  cbn [lookup list_lookup py_len mbind result_bind].
  unfold openai_format, count_tokens.
  cbn [EmbedResult.embeddings EmbedResult.model]. rewrite Hrows.
  cbn [matrix_value py_iter mbind result_bind].
  by rewrite sum_split_len_strings.
Qed.

Lemma openai_list_end_to_end_witness :
  ∃ d rows,
    length rows = length ["hello world"; ""] ∧
    Forall2 (toy_vector true) ["hello world"; ""] rows ∧
    Forall (λ row, length row = d) rows ∧
    run toy_rt (openai_compatible toy_request) toy_clock toy_loaded
    = (Ok {| OpenAIResponse.object := "list";
             OpenAIResponse.model := model_name toy_loaded;
             OpenAIResponse.data :=
               embedding_item <$>
               enumerate ((λ row, PList (PFloat <$> row)) <$> rows);
             OpenAIResponse.usage :=
               {| Usage.prompt_tokens := word_total ["hello world"; ""];
                  Usage.total_tokens := word_total ["hello world"; ""] |} |},
       toy_loaded).
Proof.
  apply (openai_list_end_to_end toy_rt toy_vector toy_loaded toy_model
           {| shape := [2; 2];
              tolist := PList [PList [PFloat 1; PFloat 0];
                               PList [PFloat 0; PFloat 1]] |}
           ["hello world"; ""] toy_request toy_clock).
  - reflexivity.
  - apply toy_model_contract.
  - discriminate.
  - reflexivity.
  - reflexivity.
Defined.
